(** * Haven: the risk-gated consent subsystem

    A shallow embedding of [src/haven/consent/manager.py] and the
    properties its specification states about it.

    Conventions of the embedding.

    - A Python [str] is a Rocq [string] holding the UTF-8 encoding of the
      text.  The source only compares strings for equality, concatenates
      them and tests them for emptiness; UTF-8 is injective and commutes
      with concatenation, so none of these can tell the two apart.
    - The class attribute [ConsentManager.ACTIONS] is one dictionary shared
      by every instance: it lives in the process state, not in the manager.
    - [self.callback] and [self.auto_approve_safe] are assigned in
      [__init__] and by no method afterwards: they are fields of an
      immutable manager value.
    - An [Action] is always truthy (the dataclass defines neither
      [__bool__] nor [__len__]) and so is a function: [if not action] and
      [if not self.callback] test for [None], which is [None] of [option].
    - The callback is foreign code.  It runs on the whole process state (it
      may prompt on the terminal, and nothing stops it from registering
      actions) and is assumed to return a [bool], as its type annotation
      says.  Each time the manager calls it, the call is recorded in the
      trace of the computation. *)

From stdpp Require Import gmap strings list fin_maps.

Open Scope string_scope.

(** ** Data model *)

(** [class ActionRisk(Enum)] *)
Inductive ActionRisk : Type :=
  | SAFE
  | LOW
  | MEDIUM
  | HIGH
  | CRITICAL.

#[global] Instance ActionRisk_eq_dec : EqDecision ActionRisk.
Proof. solve_decision. Defined.

(** [ActionRisk.X.value] *)
Definition ActionRisk_value (r : ActionRisk) : string :=
  match r with
  | SAFE => "safe"
  | LOW => "low"
  | MEDIUM => "medium"
  | HIGH => "high"
  | CRITICAL => "critical"
  end.

(** [@dataclass class Action] *)
Record Action : Type := mkAction {
  name : string;
  description : string;
  risk_level : ActionRisk;
  warning_ar : string;
  warning_en : string
}.

#[global] Instance Action_eq_dec : EqDecision Action.
Proof. solve_decision. Defined.

(** [Action.get_warning]:
    [return self.warning_ar if language == "ar" else self.warning_en] *)
Definition Action_get_warning (self : Action) (language : string) : string :=
  if String.eqb language "ar" then warning_ar self else warning_en self.

(** A Python dict display [{k1: v1, ..., kn: vn}]: the entries are stored
    from left to right, a later key replacing an earlier equal one. *)
Definition dict_display {V : Type} (entries : list (string * V)) : gmap string V :=
  foldl (fun d kv => <[kv.1 := kv.2]> d) ∅ entries.

(** [ConsentManager.ACTIONS] as the class body creates it. *)
Definition ACTIONS_seed : gmap string Action :=
  dict_display [
    ("github_delete_repo", mkAction
       "github_delete_repo"
       "Delete a GitHub repository"
       CRITICAL
       "⚠️ تحذير: هذا الإجراء سيحذف المستودع بشكل دائم. لا يمكن التراجع عن هذا الإجراء."
       "⚠️ Warning: This will permanently delete the repository. This action cannot be undone.");
    ("github_force_push", mkAction
       "github_force_push"
       "Force push to GitHub repository"
       HIGH
       "⚠️ تنبيه: الدفع القسري قد يحذف تاريخ الكود. يُنصح بأخذ نسخة احتياطية أولاً."
       "⚠️ Notice: Force pushing may delete code history. Consider backing up first.");
    ("github_make_public", mkAction
       "github_make_public"
       "Make repository public"
       MEDIUM
       "ℹ️ ملاحظة: سيصبح المستودع مرئياً للجميع. تأكد من عدم وجود بيانات حساسة."
       "ℹ️ Note: The repository will be visible to everyone. Ensure no sensitive data is present.");
    ("azure_delete_resource", mkAction
       "azure_delete_resource"
       "Delete Azure resource"
       HIGH
       "⚠️ تحذير: سيتم حذف المورد من Azure. قد يؤثر هذا على الخدمات المرتبطة."
       "⚠️ Warning: This will delete the resource from Azure. This may affect connected services.");
    ("azure_modify_permissions", mkAction
       "azure_modify_permissions"
       "Modify Azure resource permissions"
       MEDIUM
       "ℹ️ تنبيه: سيتم تعديل صلاحيات الوصول. تأكد من أنك تعرف ما تفعل."
       "ℹ️ Notice: Access permissions will be modified. Make sure you know what you're doing.");
    ("delete_file", mkAction
       "delete_file"
       "Delete a file"
       LOW
       "ℹ️ سيتم حذف الملف. هل تريد المتابعة؟"
       "ℹ️ The file will be deleted. Do you want to continue?");
    ("clear_history", mkAction
       "clear_history"
       "Clear conversation history"
       LOW
       "ℹ️ سيتم حذف سجل المحادثات. لا يمكن استرجاعه."
       "ℹ️ Conversation history will be cleared. This cannot be recovered.")
  ].

(** ** Process state and the monad of the manager's methods *)

Section Gateway.

(** Whatever the presentation layer owns (terminal, pending input, ...). *)
Context {UI : Type}.

Record Process : Type := mkProcess {
  ACTIONS : gmap string Action;
  ui : UI
}.

(** One invocation of the confirmation callback: [(warning, language)]. *)
Definition Prompt : Type := string * string.

(** The outcome of running a method: its return value, the process state
    it leaves, and the callback invocations it made, in order. *)
Record Outcome (A : Type) : Type := mkOutcome {
  result : A;
  final : Process;
  prompts : list Prompt
}.
Arguments mkOutcome {A} _ _ _.
Arguments result {A} _.
Arguments final {A} _.
Arguments prompts {A} _.

Definition M (A : Type) : Type := Process -> Outcome A.

Definition ret {A : Type} (a : A) : M A :=
  fun p => mkOutcome a p [].

Definition bind {A B : Type} (m : M A) (k : A -> M B) : M B :=
  fun p =>
    let o1 := m p in
    let o2 := k (result o1) (final o1) in
    mkOutcome (result o2) (final o2) (prompts o1 ++ prompts o2).

#[local] Instance M_ret : MRet M := @ret.
#[local] Instance M_bind : MBind M := fun A B k m => bind m k.

(** [self.ACTIONS.get(action_name)] *)
Definition ACTIONS_get (action_name : string) : M (option Action) :=
  fun p => mkOutcome (ACTIONS p !! action_name) p [].

(** [self.ACTIONS[key] = value] *)
Definition ACTIONS_setitem (key : string) (value : Action) : M unit :=
  fun p => mkOutcome tt (mkProcess (<[key := value]> (ACTIONS p)) (ui p)) [].

(** [Callable[[str, str], bool]] *)
Definition Callback : Type := string -> string -> Process -> bool * Process.

(** Calling the callback. *)
Definition call (cb : Callback) (warning language : string) : M bool :=
  fun p =>
    let r := cb warning language p in
    mkOutcome r.1 r.2 [(warning, language)].

(** [class ConsentManager]: the instance attributes. *)
Record ConsentManager : Type := mkConsentManager {
  callback : option Callback;
  auto_approve_safe : bool
}.

(** [ConsentManager.__init__] *)
Definition ConsentManager_init (cb : option Callback) : ConsentManager :=
  mkConsentManager cb true.

(** [ConsentManager.requires_consent] *)
Definition requires_consent (self : ConsentManager) (action_name : string) : M bool :=
  action ← ACTIONS_get action_name;
  match action with
  | None => ret false
  | Some action =>
      if auto_approve_safe self && bool_decide (risk_level action = SAFE)
      then ret false
      else ret true
  end.

(** [ConsentManager.get_action_risk] *)
Definition get_action_risk (self : ConsentManager) (action_name : string) : M ActionRisk :=
  action ← ACTIONS_get action_name;
  match action with
  | Some action => ret (risk_level action)
  | None => ret SAFE
  end.

(** [ConsentManager.get_warning] *)
Definition get_warning (self : ConsentManager) (action_name language : string) : M string :=
  action ← ACTIONS_get action_name;
  match action with
  | None => ret ""
  | Some action => ret (Action_get_warning action language)
  end.

(** [ConsentManager.request_consent] *)
Definition request_consent (self : ConsentManager) (action_name language : string) : M bool :=
  required ← requires_consent self action_name;
  if negb required then ret true
  else
    warning ← get_warning self action_name language;
    match callback self with
    | None => ret false
    | Some cb => call cb warning language
    end.

(** [ConsentManager.register_action] *)
Definition register_action (self : ConsentManager) (action : Action) : M unit :=
  ACTIONS_setitem (name action) action.

End Gateway.

Arguments Process : clear implicits.
Arguments Outcome : clear implicits.
Arguments M : clear implicits.
Arguments Callback : clear implicits.
Arguments ConsentManager : clear implicits.
#[global] Existing Instances M_ret M_bind.
Arguments mkOutcome {UI A} _ _ _.
Arguments result {UI A} _.
Arguments final {UI A} _.
Arguments prompts {UI A} _.

(** [create_calm_warning]: the [icons] dictionary, total on [ActionRisk]. *)
Definition icons (risk_level : ActionRisk) : string :=
  match risk_level with
  | SAFE => "✓"
  | LOW => "ℹ️"
  | MEDIUM => "⚠️"
  | HIGH => "⚠️"
  | CRITICAL => "🛑"
  end.

(** [create_calm_warning] *)
Definition create_calm_warning
    (action : string) (risk_level : ActionRisk) (details_ar details_en : string)
    : string * string :=
  let icon := icons risk_level in
  let warning_ar := icon +:+ " " +:+ details_ar in
  let warning_en := icon +:+ " " +:+ details_en in
  (warning_ar, warning_en).

(** ** Vocabulary of the statements *)

(** A callback that answers [b] whatever it is asked and whenever. *)
Definition always_yields {UI : Type} (b : bool) (cb : Callback UI) : Prop :=
  forall warning language p, (cb warning language p).1 = b.

(** What holds of each entry the class body puts in [ACTIONS]. *)
Definition seed_entry_ok (key : string) (action : Action) : Prop :=
  name action = key /\
  risk_level action <> SAFE /\
  warning_ar action <> "" /\
  warning_en action <> "".

(** The process as the class body leaves it, around a presentation
    layer in state [u]. *)
Definition startup {UI : Type} (u : UI) : Process UI := mkProcess ACTIONS_seed u.

(** Stub callbacks: they answer and touch nothing. *)
Definition approve_all {UI : Type} : Callback UI := fun _ _ p => (true, p).
Definition deny_all {UI : Type} : Callback UI := fun _ _ p => (false, p).

(** Definitions a caller may register. *)
Definition wipe_db : Action :=
  mkAction "wipe_db" "Wipe the database" CRITICAL "⚠️ حذف" "⚠️ wipe".
Definition show_status : Action :=
  mkAction "show_status" "Show the status" SAFE "" "".
Definition nameless : Action :=
  mkAction "" "" CRITICAL "" "".

(** ** The callers: the integrations and the application

    [integrations/github_service.py], [integrations/azure_service.py] and
    [main.py] are where [request_consent] is used.  The remote APIs
    (PyGithub, the Azure SDK) and the terminal (rich) are foreign code:
    they are parameters, functions on the process state like the callback.
    An exception they raise and the method catches is the left summand,
    holding [str(e)]; an exception the method does not catch is outside
    the model.  The terminal knows nothing of the registry: what rich
    does is a function on the terminal alone. *)

(** Values of the dictionaries the integrations return. *)
Inductive PyValue : Type :=
  | PyBool (b : bool)
  | PyStr (s : string).

Section Services.

Context {UI : Type}.

(** What running an integration method gave: its return value, the
    process state it leaves, the consent prompts it caused and the calls
    it made to the remote API, each in order. *)
Record Served (E A : Type) : Type := mkServed {
  reply : A;
  after : Process UI;
  asked : list Prompt;
  called : list E
}.
Arguments mkServed {E A} _ _ _ _.
Arguments reply {E A} _.
Arguments after {E A} _.
Arguments asked {E A} _.
Arguments called {E A} _.

Definition Svc (E A : Type) : Type := Process UI -> Served E A.

Definition Svc_ret {E A : Type} (a : A) : Svc E A :=
  fun p => mkServed a p [] [].

Definition Svc_bind {E A B : Type} (m : Svc E A) (k : A -> Svc E B) : Svc E B :=
  fun p =>
    let s1 := m p in
    let s2 := k (reply s1) (after s1) in
    mkServed (reply s2) (after s2) (asked s1 ++ asked s2) (called s1 ++ called s2).

#[local] Instance Svc_mret {E : Type} : MRet (Svc E) := @Svc_ret E.
#[local] Instance Svc_mbind {E : Type} : MBind (Svc E) := fun A B k m => Svc_bind m k.

(** A method of the consent manager, run from an integration. *)
Definition consult {E A : Type} (m : M UI A) : Svc E A :=
  fun p => let o := m p in mkServed (result o) (final o) (prompts o) [].

(** A call of the remote API. *)
Definition remote {E A : Type} (event : E) (api : Process UI -> A * Process UI) : Svc E A :=
  fun p => let r := api p in mkServed r.1 r.2 [] [event].

(** The test both integrations make:
    [self.consent and not self.consent.request_consent(action_name, language)];
    a [ConsentManager] is truthy, [None] is not. *)
Definition consent_refused (consent : option (ConsentManager UI))
    (action_name language : string) : M UI bool :=
  match consent with
  | None => ret false
  | Some manager =>
      granted ← request_consent manager action_name language;
      ret (negb granted)
  end.

End Services.

Arguments Served : clear implicits.
Arguments Svc : clear implicits.
Arguments mkServed {UI E A} _ _ _ _.
Arguments reply {UI E A} _.
Arguments after {UI E A} _.
Arguments asked {UI E A} _.
Arguments called {UI E A} _.
#[global] Existing Instances Svc_mret Svc_mbind.

(** [class GitHubService] *)
Module GitHubService.
Section GitHubService.

Context {UI Repository : Type}.

(** The calls [delete_repository] makes to PyGithub. *)
Inductive Call : Type :=
  | get_repo (full_name : string)
  | delete (repo : Repository).

(** [self.client.get_repo] and [repo.delete]; [inl] is a [GithubException]. *)
Variable Github_get_repo : string -> Process UI -> (string + Repository) * Process UI.
Variable Repository_delete : Repository -> Process UI -> (string + unit) * Process UI.

(** The instance: [self.consent = consent_manager]. *)
Record t : Type := mk {
  consent : option (ConsentManager UI)
}.

(** [GitHubService.delete_repository] *)
Definition delete_repository (self : t) (repo_name language : string)
    : Svc UI Call (gmap string PyValue) :=
  refused ← consult (consent_refused (consent self) "github_delete_repo" language);
  if (refused : bool) then
    mret (dict_display [
      ("success", PyBool false);
      ("error", PyStr (if String.eqb language "en"
                       then "User denied consent" else "رفض المستخدم الموافقة"))])
  else
    found ← remote (get_repo repo_name) (Github_get_repo repo_name);
    match found with
    | inl e => mret (dict_display [("success", PyBool false); ("error", PyStr e)])
    | inr repo =>
        deleted ← remote (delete repo) (Repository_delete repo);
        match deleted with
        | inl e => mret (dict_display [("success", PyBool false); ("error", PyStr e)])
        | inr _ => mret (dict_display [("success", PyBool true)])
        end
    end.

End GitHubService.
Arguments t : clear implicits.
Arguments Call : clear implicits.
End GitHubService.

(** [class AzureService] *)
Module AzureService.
Section AzureService.

Context {UI Poller : Type}.

(** The call [delete_resource_group] makes to the Azure SDK. *)
Inductive Call : Type :=
  | begin_delete (resource_group_name : string).

(** [self.resource_client.resource_groups.begin_delete]; [inl] is an
    [Exception]. *)
Variable resource_groups_begin_delete :
  string -> Process UI -> (string + Poller) * Process UI.

(** The instance: [self.consent = consent_manager]. *)
Record t : Type := mk {
  consent : option (ConsentManager UI)
}.

(** [AzureService.delete_resource_group] *)
Definition delete_resource_group (self : t) (name language : string)
    : Svc UI Call (gmap string PyValue) :=
  refused ← consult (consent_refused (consent self) "azure_delete_resource" language);
  if (refused : bool) then
    mret (dict_display [
      ("success", PyBool false);
      ("error", PyStr (if String.eqb language "en"
                       then "User denied consent" else "رفض المستخدم الموافقة"))])
  else
    poller ← remote (begin_delete name) (resource_groups_begin_delete name);
    match poller with
    | inr _ =>
        mret (dict_display [
          ("success", PyBool true);
          ("message", PyStr (if String.eqb language "en"
                             then "Deletion started" else "بدأ الحذف"))])
    | inl e => mret (dict_display [("success", PyBool false); ("error", PyStr e)])
    end.

End AzureService.
Arguments t : clear implicits.
End AzureService.

(** [class HavenApp], with the [TerminalUI] it owns. *)
Module HavenApp.
Section HavenApp.

(** The terminal as rich drives it. *)
Context {Terminal : Type}.

(** [Panel(message, border_style=..., title=...)] *)
Record Panel : Type := mkPanel {
  renderable : string;
  border_style : string;
  title : string
}.

(** [self.console.print] of a panel, and [Confirm.ask(message, default=...)]. *)
Variable Console_print : Panel -> Terminal -> Terminal.
Variable Confirm_ask : string -> bool -> Terminal -> bool * Terminal.

(** [class TerminalUI] *)
Record TerminalUI : Type := mkTerminalUI {
  console : Terminal;
  current_language : string
}.

(** [TerminalUI.print_warning] *)
Definition print_warning (message : string) (self : TerminalUI) : TerminalUI :=
  mkTerminalUI
    (Console_print (mkPanel message "yellow" "⚠️") (console self))
    (current_language self).

(** [TerminalUI.confirm] *)
Definition confirm (message : string) (default : bool) (self : TerminalUI)
    : bool * TerminalUI :=
  let r := Confirm_ask message default (console self) in
  (r.1, mkTerminalUI r.2 (current_language self)).

(** [HavenApp._consent_callback] *)
Definition _consent_callback : Callback TerminalUI :=
  fun warning language p =>
    let ui1 := print_warning warning (ui p) in
    let confirm_text :=
      if String.eqb language "ar" then "هل تريد المتابعة؟" else "Do you want to continue?" in
    let r := confirm confirm_text false ui1 in
    (r.1, mkProcess (ACTIONS p) r.2).

(** [HavenApp.__init__]:
    [self.consent = ConsentManager(callback=self._consent_callback)] *)
Definition consent : ConsentManager TerminalUI :=
  ConsentManager_init (Some _consent_callback).

(** [HavenApp.__init__]: [self.github = GitHubService(self.consent)] and
    [self.azure = AzureService(self.consent)], when their credentials are
    configured. *)
Definition github : GitHubService.t TerminalUI := GitHubService.mk (Some consent).
Definition azure : AzureService.t TerminalUI := AzureService.mk (Some consent).

End HavenApp.
Arguments TerminalUI : clear implicits.
End HavenApp.

(** Stand-ins for the foreign code: a terminal that keeps what it was
    given to show and answers every question the same way, a GitHub that
    knows every repository but the one with the empty name, an Azure that
    accepts every deletion. *)
Definition stub_print : HavenApp.Panel -> list string -> list string :=
  fun panel screen => (screen ++ [HavenApp.renderable panel])%list.
Definition stub_confirm (answer : bool)
    : string -> bool -> list string -> bool * list string :=
  fun message _ screen => (answer, (screen ++ [message])%list).
Definition stub_get_repo {UI : Type}
    : string -> Process UI -> (string + string) * Process UI :=
  fun full_name p => (if String.eqb full_name "" then inl "404" else inr full_name, p).
Definition stub_delete {UI : Type}
    : string -> Process UI -> (string + unit) * Process UI :=
  fun _ p => (inr tt, p).
Definition stub_begin_delete {UI : Type}
    : string -> Process UI -> (string + unit) * Process UI :=
  fun _ p => (inr tt, p).

(** ** How the methods run *)

Section Runs.

Context {UI : Type}.
Implicit Types (self : ConsentManager UI) (p : Process UI).
Implicit Types (action_name language : string) (action : Action).

Lemma requires_consent_run self action_name p :
  requires_consent self action_name p =
  mkOutcome
    (match ACTIONS p !! action_name with
     | None => false
     | Some action => negb (auto_approve_safe self && bool_decide (risk_level action = SAFE))
     end) p [].
Proof.
  unfold requires_consent, mbind, M_bind, bind, ACTIONS_get; simpl.
  destruct (ACTIONS p !! action_name) as [action|]; [|reflexivity].
  destruct (auto_approve_safe self && bool_decide (risk_level action = SAFE)); reflexivity.
Qed.

Lemma get_action_risk_run self action_name p :
  get_action_risk self action_name p =
  mkOutcome (from_option risk_level SAFE (ACTIONS p !! action_name)) p [].
Proof.
  unfold get_action_risk, mbind, M_bind, bind, ACTIONS_get; simpl.
  destruct (ACTIONS p !! action_name); reflexivity.
Qed.

Lemma get_warning_run self action_name language p :
  get_warning self action_name language p =
  mkOutcome
    (from_option (fun action => Action_get_warning action language) ""
       (ACTIONS p !! action_name)) p [].
Proof.
  unfold get_warning, mbind, M_bind, bind, ACTIONS_get; simpl.
  destruct (ACTIONS p !! action_name); reflexivity.
Qed.

(** Sequencing: the continuation starts where the first computation
    stopped, and the traces are put end to end. *)
Lemma bind_run {A B : Type} (m : M UI A) (k : A -> M UI B) p a q t :
  m p = mkOutcome a q t ->
  (m ≫= k) p = mkOutcome (result (k a q)) (final (k a q)) (t ++ prompts (k a q)).
Proof. intros Hm. unfold mbind, M_bind, bind. rewrite Hm. reflexivity. Qed.

(** The three ways through [request_consent]. *)
Lemma request_consent_not_required self action_name language p :
  result (requires_consent self action_name p) = false ->
  request_consent self action_name language p = mkOutcome true p [].
Proof.
  intros Hreq. unfold request_consent.
  rewrite (bind_run _ _ _ _ _ _ (requires_consent_run self action_name p)).
  rewrite requires_consent_run in Hreq. cbn [result] in Hreq.
  rewrite Hreq. reflexivity.
Qed.

Lemma request_consent_no_callback self action_name language p :
  result (requires_consent self action_name p) = true ->
  callback self = None ->
  request_consent self action_name language p = mkOutcome false p [].
Proof.
  intros Hreq Hcb. unfold request_consent.
  rewrite (bind_run _ _ _ _ _ _ (requires_consent_run self action_name p)).
  rewrite requires_consent_run in Hreq. cbn [result] in Hreq.
  rewrite Hreq. cbn [negb].
  rewrite (bind_run _ _ _ _ _ _ (get_warning_run self action_name language p)).
  rewrite Hcb. reflexivity.
Qed.

Lemma request_consent_callback self cb action_name language p :
  result (requires_consent self action_name p) = true ->
  callback self = Some cb ->
  request_consent self action_name language p =
  call cb (result (get_warning self action_name language p)) language p.
Proof.
  intros Hreq Hcb. unfold request_consent.
  rewrite (bind_run _ _ _ _ _ _ (requires_consent_run self action_name p)).
  rewrite requires_consent_run in Hreq. cbn [result] in Hreq.
  rewrite Hreq. cbn [negb].
  rewrite (bind_run _ _ _ _ _ _ (get_warning_run self action_name language p)).
  rewrite Hcb, get_warning_run. reflexivity.
Qed.

End Runs.

(** ** The policy and the gateway *)

Section Policy.

Context {UI : Type}.
Implicit Types (self : ConsentManager UI) (p : Process UI) (cb : Callback UI).
Implicit Types (action_name language : string) (action : Action).

(** C1. With no callback configured, [request_consent] denies every action
    that requires consent; and whatever the callback is, or if there is
    none, it approves every action that does not require consent. *)
Theorem request_consent_fail_closed self action_name language p :
  (callback self = None ->
   result (requires_consent self action_name p) = true ->
   result (request_consent self action_name language p) = false) /\
  (result (requires_consent self action_name p) = false ->
   result (request_consent self action_name language p) = true).
Proof.
  split.
  - intros Hcb Hreq.
    rewrite (request_consent_no_callback _ _ _ _ Hreq Hcb). reflexivity.
  - intros Hreq.
    rewrite (request_consent_not_required _ _ _ _ Hreq). reflexivity.
Qed.

(** C2. An action name the registry does not hold requires no consent, has
    risk [SAFE], and has the empty warning in every language. *)
Theorem unknown_action_is_safe self action_name p :
  ACTIONS p !! action_name = None ->
  result (requires_consent self action_name p) = false /\
  result (get_action_risk self action_name p) = SAFE /\
  forall language, result (get_warning self action_name language p) = "".
Proof.
  intros Hget. repeat split; [| |intros language].
  - rewrite requires_consent_run; cbn [result]. rewrite Hget. reflexivity.
  - rewrite get_action_risk_run; cbn [result]. rewrite Hget. reflexivity.
  - rewrite get_warning_run; cbn [result]. rewrite Hget. reflexivity.
Qed.

(** C3. For a registered action of risk [SAFE], consent is not required
    when [auto_approve_safe] is set and is required when it is not; for a
    registered action of any other risk, consent is required under both
    values of [auto_approve_safe]. *)
Theorem requires_consent_registered (callback : option (Callback UI))
    action_name action p :
  ACTIONS p !! action_name = Some action ->
  (risk_level action = SAFE ->
   result (requires_consent (mkConsentManager callback true) action_name p) = false /\
   result (requires_consent (mkConsentManager callback false) action_name p) = true) /\
  (risk_level action <> SAFE ->
   forall auto_approve_safe : bool,
     result (requires_consent (mkConsentManager callback auto_approve_safe)
               action_name p) = true).
Proof.
  intros Hget. split.
  - intros Hsafe. rewrite !requires_consent_run; cbn [result auto_approve_safe].
    rewrite Hget, bool_decide_true by exact Hsafe. split; reflexivity.
  - intros Hrisk b. rewrite requires_consent_run; cbn [result auto_approve_safe].
    rewrite Hget, bool_decide_false by exact Hrisk.
    rewrite andb_false_r. reflexivity.
Qed.

(** C4 (as the code has it). For a registered action, [get_warning]
    returns the Arabic text when the language is "ar" and the English text
    for every other language tag, "en" among them: the fallback for an
    unsupported tag is English. *)
Theorem get_warning_registered self action_name action language p :
  ACTIONS p !! action_name = Some action ->
  (language = "ar" ->
   result (get_warning self action_name language p) = warning_ar action) /\
  (language = "en" ->
   result (get_warning self action_name language p) = warning_en action) /\
  (language <> "ar" ->
   result (get_warning self action_name language p) = warning_en action).
Proof.
  intros Hget. rewrite get_warning_run; cbn [result]. rewrite Hget.
  unfold from_option, Action_get_warning.
  repeat split.
  - intros ->. reflexivity.
  - intros ->. reflexivity.
  - intros Hne. apply String.eqb_neq in Hne. rewrite Hne. reflexivity.
Qed.

(** C5. One call of [request_consent] calls the callback exactly once when
    the action requires consent and a callback is configured, passing it
    the warning of the action in the requested language and the language
    tag, and returns what the callback answers; when the action does not
    require consent the callback is not called (and the process state is
    left as it was). *)
Theorem request_consent_calls_callback self action_name language p :
  (forall cb,
     callback self = Some cb ->
     result (requires_consent self action_name p) = true ->
     let warning := result (get_warning self action_name language p) in
     prompts (request_consent self action_name language p) = [(warning, language)] /\
     result (request_consent self action_name language p) = (cb warning language p).1 /\
     final (request_consent self action_name language p) = (cb warning language p).2) /\
  (result (requires_consent self action_name p) = false ->
   prompts (request_consent self action_name language p) = [] /\
   result (request_consent self action_name language p) = true /\
   final (request_consent self action_name language p) = p).
Proof.
  split.
  - intros cb Hcb Hreq warning.
    rewrite (request_consent_callback _ _ _ _ _ Hreq Hcb).
    unfold call; cbn [result final prompts]. repeat split.
  - intros Hreq.
    rewrite (request_consent_not_required _ _ _ _ Hreq).
    repeat split.
Qed.

End Policy.

(** ** Registration *)

Section Registration.

Context {UI : Type}.
Implicit Types (self : ConsentManager UI) (p : Process UI).
Implicit Types (action : Action).

(** C6 (as the code has it). [register_action] stores the definition under
    its name, replacing whatever the registry held there, and checks
    nothing at all, the name included: for every definition (empty name,
    non-SAFE risk with empty warnings, ...) the registry afterwards is the
    old one with the name bound to the definition, a lookup of the name
    returns exactly the definition, every other name keeps its entry, and
    nothing else in the process changes. *)
Theorem register_action_inserts self action p :
  ACTIONS (final (register_action self action p)) =
    <[name action := action]> (ACTIONS p) /\
  result (ACTIONS_get (name action) (final (register_action self action p))) =
    Some action /\
  (forall other : string,
     other <> name action ->
     result (ACTIONS_get other (final (register_action self action p))) =
     result (ACTIONS_get other p)) /\
  ui (final (register_action self action p)) = ui p /\
  prompts (register_action self action p) = [].
Proof.
  unfold register_action, ACTIONS_setitem, ACTIONS_get; cbn [result final prompts ACTIONS ui].
  repeat split.
  - apply lookup_insert_eq.
  - intros other Hne. apply lookup_insert_ne. congruence.
Qed.

End Registration.

(** ** The built-in actions *)

Lemma ACTIONS_seed_entries : map_Forall seed_entry_ok ACTIONS_seed.
Proof.
  unfold ACTIONS_seed, dict_display; cbn [foldl fst snd].
  repeat (apply map_Forall_insert_2;
          [unfold seed_entry_ok; cbn; repeat split; discriminate|]).
  apply map_Forall_empty.
Qed.

(** C7 (as the code has it). The class body puts exactly seven actions in
    the registry, under the seven names below.  Each is stored under its
    own name, none has risk [SAFE], each has a non-empty warning in Arabic
    and in English, and the risks that occur are exactly the four other
    than [SAFE].  "github_delete_repo" is [CRITICAL] and requires consent
    under either value of [auto_approve_safe]. *)
Theorem ACTIONS_seed_contents :
  size ACTIONS_seed = 7 /\
  dom ACTIONS_seed =
    list_to_set ["github_delete_repo"; "github_force_push"; "github_make_public";
                 "azure_delete_resource"; "azure_modify_permissions";
                 "delete_file"; "clear_history"] /\
  map_Forall seed_entry_ok ACTIONS_seed /\
  (forall r : ActionRisk,
     (exists key action, ACTIONS_seed !! key = Some action /\ risk_level action = r)
     <-> r <> SAFE) /\
  (forall (UI : Type) (self : ConsentManager UI) (u : UI),
     result (get_action_risk self "github_delete_repo" (mkProcess ACTIONS_seed u))
       = CRITICAL /\
     result (requires_consent self "github_delete_repo" (mkProcess ACTIONS_seed u))
       = true).
Proof.
  split; [vm_compute; reflexivity|].
  split; [vm_compute; reflexivity|].
  split; [exact ACTIONS_seed_entries|].
  split.
  - intros r. split.
    + intros (key & action & Hget & <-).
      apply (ACTIONS_seed_entries key action Hget).
    + intros Hr. destruct r; [congruence| | | |].
      * exists "delete_file". eexists. split; [vm_compute; reflexivity|reflexivity].
      * exists "github_make_public". eexists. split; [vm_compute; reflexivity|reflexivity].
      * exists "github_force_push". eexists. split; [vm_compute; reflexivity|reflexivity].
      * exists "github_delete_repo". eexists. split; [vm_compute; reflexivity|reflexivity].
  - intros UI self u.
    assert (Hget : ACTIONS_seed !! "github_delete_repo" =
                   Some (mkAction "github_delete_repo" "Delete a GitHub repository" CRITICAL
       "⚠️ تحذير: هذا الإجراء سيحذف المستودع بشكل دائم. لا يمكن التراجع عن هذا الإجراء."
       "⚠️ Warning: This will permanently delete the repository. This action cannot be undone."))
      by (vm_compute; reflexivity).
    rewrite get_action_risk_run, requires_consent_run; cbn [result ACTIONS].
    rewrite Hget; cbn [from_option risk_level].
    rewrite bool_decide_false by discriminate.
    rewrite andb_false_r. split; reflexivity.
Qed.

(** ** Repeated requests and purity of the decision logic *)

Section Repetition.

Context {UI : Type}.
Implicit Types (self : ConsentManager UI) (p : Process UI) (cb : Callback UI).
Implicit Types (action_name language : string).

(** What a request returns when a callback is configured: the callback's
    answer to this very call if the action requires consent in the state
    the call starts from, [true] otherwise. *)
Lemma request_consent_result self cb action_name language p :
  callback self = Some cb ->
  result (request_consent self action_name language p) =
  if result (requires_consent self action_name p)
  then (cb (result (get_warning self action_name language p)) language p).1
  else true.
Proof.
  intros Hcb.
  destruct (result (requires_consent self action_name p)) eqn:Hreq.
  - rewrite (request_consent_callback _ _ _ _ _ Hreq Hcb). reflexivity.
  - rewrite (request_consent_not_required _ _ _ _ Hreq). reflexivity.
Qed.

(** The whole of a request when a callback is configured: one call of
    the callback on the state the request starts from if the action
    requires consent there, and otherwise [true] with the state as it was
    and nobody asked.  The request itself adds nothing to either. *)
Lemma request_consent_outcome self cb action_name language p :
  callback self = Some cb ->
  request_consent self action_name language p =
  if result (requires_consent self action_name p)
  then call cb (result (get_warning self action_name language p)) language p
  else mkOutcome true p [].
Proof.
  intros Hcb.
  destruct (result (requires_consent self action_name p)) eqn:Hreq.
  - apply request_consent_callback; assumption.
  - apply request_consent_not_required; assumption.
Qed.

(** The decision and the warning read the registry and nothing else of
    the process. *)
Lemma decision_same_registry self action_name language (p q : Process UI) :
  ACTIONS q = ACTIONS p ->
  result (requires_consent self action_name q) =
    result (requires_consent self action_name p) /\
  result (get_warning self action_name language q) =
    result (get_warning self action_name language p).
Proof.
  intros Hsame. rewrite !requires_consent_run, !get_warning_run; cbn [result].
  rewrite Hsame. split; reflexivity.
Qed.

(** C8 (as the code has it). Take two consecutive requests for the same
    action and language.  With a callback that always answers [true] both
    return [true].  With a callback that always answers [false] each
    returns [false] exactly when the action requires consent in the state
    that call starts from, and [true] otherwise (the callback is not asked
    about an action that requires no consent); so both return [false] when
    the action requires consent and the callback leaves the registry
    alone.  Nothing is remembered from the first call, an approval no more
    than a refusal: each of the two requests is, as a whole (what it
    returns, the state it leaves, whom it asks), one call of the callback
    on the state it starts from when the action requires consent there,
    and nothing at all otherwise; the first leaves the state the callback
    left.  So when the action requires consent and the callback leaves the
    registry alone, the second request asks the callback again, with the
    same warning, and returns the answer to that second question. *)
Theorem request_consent_twice self cb action_name language p :
  callback self = Some cb ->
  let first := request_consent self action_name language p in
  let second := request_consent self action_name language (final first) in
  (always_yields true cb -> result first = true /\ result second = true) /\
  (always_yields false cb ->
   result first = negb (result (requires_consent self action_name p)) /\
   result second = negb (result (requires_consent self action_name (final first)))) /\
  (always_yields false cb ->
   (forall warning lang q, ACTIONS (cb warning lang q).2 = ACTIONS q) ->
   result (requires_consent self action_name p) = true ->
   result first = false /\ result second = false) /\
  result second =
    (if result (requires_consent self action_name (final first))
     then (cb (result (get_warning self action_name language (final first)))
             language (final first)).1
     else true) /\
  first =
    (if result (requires_consent self action_name p)
     then call cb (result (get_warning self action_name language p)) language p
     else mkOutcome true p []) /\
  second =
    (if result (requires_consent self action_name (final first))
     then call cb (result (get_warning self action_name language (final first)))
            language (final first)
     else mkOutcome true (final first) []) /\
  ((forall warning lang q, ACTIONS (cb warning lang q).2 = ACTIONS q) ->
   result (requires_consent self action_name p) = true ->
   let warning := result (get_warning self action_name language p) in
   prompts first = [(warning, language)] /\
   final first = (cb warning language p).2 /\
   prompts second = [(warning, language)] /\
   result second = (cb warning language (final first)).1 /\
   final second = (cb warning language (final first)).2).
Proof.
  intros Hcb first second. subst first second.
  assert (Hconst : forall b q, always_yields b cb ->
            result (request_consent self action_name language q) =
            if result (requires_consent self action_name q) then b else true).
  { intros b q Hb. rewrite (request_consent_result _ _ _ _ _ Hcb), Hb. reflexivity. }
  split; [|split; [|split; [|split; [|split; [|split]]]]].
  - intros Hyes. rewrite !(Hconst true _ Hyes).
    split; destruct (result _); reflexivity.
  - intros Hno. rewrite !(Hconst false _ Hno).
    split; destruct (result _); reflexivity.
  - intros Hno Hframe Hreq. rewrite !(Hconst false _ Hno).
    rewrite (request_consent_callback _ _ _ _ _ Hreq Hcb).
    unfold call; cbn [final].
    rewrite requires_consent_run in Hreq |- *; cbn [result] in Hreq |- *.
    rewrite (requires_consent_run self action_name (cb _ _ _).2); cbn [result].
    rewrite Hframe, Hreq. split; reflexivity.
  - apply request_consent_result. exact Hcb.
  - apply request_consent_outcome. exact Hcb.
  - apply request_consent_outcome. exact Hcb.
  - intros Hframe Hreq warning. subst warning.
    destruct (decision_same_registry self action_name language p
                (cb (result (get_warning self action_name language p)) language p).2
                (Hframe _ _ _)) as [Hreq' Hwarn'].
    rewrite (request_consent_callback _ _ _ _ _ Hreq Hcb).
    cbv [call]; cbn [prompts final].
    rewrite (request_consent_outcome _ _ _ _ _ Hcb), Hreq', Hreq, Hwarn'.
    cbv [call]; cbn [prompts final result].
    repeat split.
Qed.

(** C9. [requires_consent] and [get_warning] leave the process state (the
    registry with it) as they found it and call no callback; the manager
    is a value they cannot change.  The answer of [requires_consent] is
    the same for any two managers with the same [auto_approve_safe] on any
    two states with the same registry, the answer of [get_warning] for any
    two managers on any two states with the same registry; and asking a
    second time gives the first answer again. *)
Theorem decision_logic_pure self1 self2 action_name language (p1 p2 : Process UI) :
  ACTIONS p1 = ACTIONS p2 ->
  auto_approve_safe self1 = auto_approve_safe self2 ->
  (final (requires_consent self1 action_name p1) = p1 /\
   prompts (requires_consent self1 action_name p1) = [] /\
   final (get_warning self1 action_name language p1) = p1 /\
   prompts (get_warning self1 action_name language p1) = []) /\
  result (requires_consent self1 action_name p1) =
    result (requires_consent self2 action_name p2) /\
  result (get_warning self1 action_name language p1) =
    result (get_warning self2 action_name language p2) /\
  result (requires_consent self1 action_name
            (final (requires_consent self1 action_name p1))) =
    result (requires_consent self1 action_name p1) /\
  result (get_warning self1 action_name language
            (final (get_warning self1 action_name language p1))) =
    result (get_warning self1 action_name language p1).
Proof.
  intros Hreg Hauto.
  rewrite !requires_consent_run, !get_warning_run; cbn [result final prompts].
  rewrite Hreg, Hauto. repeat split.
Qed.

End Repetition.

(** ** Calm warnings *)

(** C10. [create_calm_warning] returns the Arabic warning first and the
    English one second, each the icon of the risk level, a space and the
    details; the icon is "✓" for [SAFE], "ℹ️" for [LOW], "⚠️" for [MEDIUM]
    and [HIGH], "🛑" for [CRITICAL]; neither warning is empty. *)
Theorem create_calm_warning_pair (action : string) (risk_level : ActionRisk)
    (details_ar details_en : string) :
  let icon :=
    match risk_level with
    | SAFE => "✓"
    | LOW => "ℹ️"
    | MEDIUM | HIGH => "⚠️"
    | CRITICAL => "🛑"
    end in
  create_calm_warning action risk_level details_ar details_en =
    (icon +:+ " " +:+ details_ar, icon +:+ " " +:+ details_en) /\
  (create_calm_warning action risk_level details_ar details_en).1 <> "" /\
  (create_calm_warning action risk_level details_ar details_en).2 <> "".
Proof.
  destruct risk_level; cbn; repeat split; discriminate.
Qed.

(** ** The statements at work on concrete processes *)

(** C1 at work: no callback; "github_delete_repo" is denied, an action
    nobody registered is approved. *)
Lemma request_consent_fail_closed_witness :
  result (request_consent (UI := unit) (ConsentManager_init None)
            "github_delete_repo" "ar" (startup tt)) = false /\
  result (request_consent (UI := unit) (ConsentManager_init None)
            "unregistered_action" "ar" (startup tt)) = true.
Proof.
  split.
  - apply (proj1 (request_consent_fail_closed (UI := unit) (ConsentManager_init None)
                    "github_delete_repo" "ar" (startup tt))).
    + reflexivity.
    + vm_compute; reflexivity.
  - apply (proj2 (request_consent_fail_closed (UI := unit) (ConsentManager_init None)
                    "unregistered_action" "ar" (startup tt))).
    vm_compute; reflexivity.
Defined.

(** C2 at work on an action nobody registered. *)
Lemma unknown_action_is_safe_witness :
  result (requires_consent (UI := unit) (ConsentManager_init None)
            "unknown_action" (startup tt)) = false /\
  result (get_action_risk (UI := unit) (ConsentManager_init None)
            "unknown_action" (startup tt)) = SAFE /\
  forall language,
    result (get_warning (UI := unit) (ConsentManager_init None)
              "unknown_action" language (startup tt)) = "".
Proof.
  apply (unknown_action_is_safe (UI := unit) (ConsentManager_init None)
           "unknown_action" (startup tt)).
  vm_compute; reflexivity.
Defined.

(** C3 at work: a registered SAFE action under both settings, and a LOW
    one. *)
Lemma requires_consent_registered_witness :
  (result (requires_consent (UI := unit) (mkConsentManager None true) "show_status"
             (final (register_action (ConsentManager_init None) show_status (startup tt))))
     = false /\
   result (requires_consent (UI := unit) (mkConsentManager None false) "show_status"
             (final (register_action (ConsentManager_init None) show_status (startup tt))))
     = true) /\
  (forall auto_approve_safe : bool,
     result (requires_consent (UI := unit) (mkConsentManager None auto_approve_safe)
               "delete_file" (startup tt)) = true).
Proof.
  split.
  - apply (proj1 (requires_consent_registered (UI := unit) None "show_status" show_status
                    (final (register_action (ConsentManager_init None) show_status
                              (startup tt)))
                    ltac:(vm_compute; reflexivity))).
    reflexivity.
  - apply (proj2 (requires_consent_registered (UI := unit) None "delete_file"
                    (mkAction "delete_file" "Delete a file" LOW
                       "ℹ️ سيتم حذف الملف. هل تريد المتابعة؟"
                       "ℹ️ The file will be deleted. Do you want to continue?")
                    (startup tt)
                    ltac:(vm_compute; reflexivity))).
    cbn. discriminate.
Defined.

(** C4 refuted as stated: for the tag "fr", which is neither "ar" nor
    "en", the warning of "github_delete_repo" is the English text and not
    the Arabic one. *)
Lemma get_warning_fallback_is_english :
  result (get_warning (UI := unit) (ConsentManager_init None)
            "github_delete_repo" "fr" (startup tt)) =
    "⚠️ Warning: This will permanently delete the repository. This action cannot be undone." /\
  result (get_warning (UI := unit) (ConsentManager_init None)
            "github_delete_repo" "fr" (startup tt)) <>
    "⚠️ تحذير: هذا الإجراء سيحذف المستودع بشكل دائم. لا يمكن التراجع عن هذا الإجراء." /\
  result (get_warning (UI := unit) (ConsentManager_init None)
            "github_delete_repo" "ar" (startup tt)) =
    "⚠️ تحذير: هذا الإجراء سيحذف المستودع بشكل دائم. لا يمكن التراجع عن هذا الإجراء.".
Proof.
  split; [vm_compute; reflexivity|].
  split; [vm_compute; discriminate|vm_compute; reflexivity].
Defined.

(** C4 at work on [wipe_db], once registered. *)
Lemma get_warning_registered_witness :
  result (get_warning (UI := unit) (ConsentManager_init None) "wipe_db" "ar"
            (final (register_action (ConsentManager_init None) wipe_db (startup tt))))
    = "⚠️ حذف" /\
  result (get_warning (UI := unit) (ConsentManager_init None) "wipe_db" "en"
            (final (register_action (ConsentManager_init None) wipe_db (startup tt))))
    = "⚠️ wipe" /\
  result (get_warning (UI := unit) (ConsentManager_init None) "wipe_db" "fr"
            (final (register_action (ConsentManager_init None) wipe_db (startup tt))))
    = "⚠️ wipe".
Proof.
  pose proof (fun language =>
    get_warning_registered (UI := unit) (ConsentManager_init None) "wipe_db" wipe_db language
      (final (register_action (ConsentManager_init None) wipe_db (startup tt)))
      ltac:(vm_compute; reflexivity)) as Hw.
  split; [|split].
  - apply (proj1 (Hw "ar")). reflexivity.
  - apply (proj1 (proj2 (Hw "en"))). reflexivity.
  - apply (proj2 (proj2 (Hw "fr"))). discriminate.
Defined.

(** C5 at work, the scenario of the specification: [wipe_db] is
    registered and requested in English from a callback that denies; the
    callback is called once, with the English warning and "en", and the
    request is denied.  An unregistered action prompts nobody. *)
Lemma request_consent_calls_callback_witness :
  (prompts (request_consent (UI := unit) (ConsentManager_init (Some deny_all)) "wipe_db" "en"
              (final (register_action (ConsentManager_init None) wipe_db (startup tt))))
     = [("⚠️ wipe", "en")] /\
   result (request_consent (UI := unit) (ConsentManager_init (Some deny_all)) "wipe_db" "en"
             (final (register_action (ConsentManager_init None) wipe_db (startup tt))))
     = false) /\
  (prompts (request_consent (UI := unit) (ConsentManager_init (Some deny_all))
              "unregistered_action" "ar" (startup tt)) = [] /\
   result (request_consent (UI := unit) (ConsentManager_init (Some deny_all))
             "unregistered_action" "ar" (startup tt)) = true).
Proof.
  split.
  - destruct (proj1 (request_consent_calls_callback (UI := unit)
                       (ConsentManager_init (Some deny_all)) "wipe_db" "en"
                       (final (register_action (ConsentManager_init None) wipe_db
                                 (startup tt))))
                deny_all eq_refl ltac:(vm_compute; reflexivity)) as (Hp & Hr & _).
    split; [exact Hp|exact Hr].
  - destruct (proj2 (request_consent_calls_callback (UI := unit)
                       (ConsentManager_init (Some deny_all)) "unregistered_action" "ar"
                       (startup tt))
                ltac:(vm_compute; reflexivity)) as (Hp & Hr & _).
    split; [exact Hp|exact Hr].
Defined.

(** C6 refuted as stated: no non-empty name is required.  A definition
    whose name is the empty string is registered like any other; the
    registry, which had nothing under the empty name, now has the
    definition there, and one entry more. *)
Lemma register_action_accepts_empty_name :
  name nameless = "" /\
  result (ACTIONS_get (UI := unit) "" (startup tt)) = None /\
  result (ACTIONS_get (UI := unit) ""
            (final (register_action (ConsentManager_init None) nameless (startup tt))))
    = Some nameless /\
  size (ACTIONS (final (register_action (UI := unit) (ConsentManager_init None) nameless
                          (startup tt)))) = 8.
Proof.
  split; [reflexivity|].
  split; [vm_compute; reflexivity|].
  split; vm_compute; reflexivity.
Defined.

(** C6 at work: [wipe_db] is registered and found; registering it again
    under the name "github_delete_repo" replaces the built-in (last write
    wins), and "delete_file" keeps its entry. *)
Lemma register_action_inserts_witness :
  result (ACTIONS_get (UI := unit) "wipe_db"
            (final (register_action (ConsentManager_init None) wipe_db (startup tt))))
    = Some wipe_db /\
  result (ACTIONS_get (UI := unit) "github_delete_repo"
            (final (register_action (ConsentManager_init None)
                      (mkAction "github_delete_repo" "" LOW "" "") (startup tt))))
    = Some (mkAction "github_delete_repo" "" LOW "" "") /\
  result (ACTIONS_get (UI := unit) "delete_file"
            (final (register_action (ConsentManager_init None) wipe_db (startup tt))))
    = result (ACTIONS_get (UI := unit) "delete_file" (startup tt)).
Proof.
  split; [|split].
  - apply (register_action_inserts (UI := unit) (ConsentManager_init None) wipe_db
             (startup tt)).
  - apply (register_action_inserts (UI := unit) (ConsentManager_init None)
             (mkAction "github_delete_repo" "" LOW "" "") (startup tt)).
  - apply (register_action_inserts (UI := unit) (ConsentManager_init None) wipe_db
             (startup tt)).
    discriminate.
Defined.

(** C7 refuted as stated: the class body registers seven actions, not
    six. *)
Lemma ACTIONS_seed_has_seven :
  size ACTIONS_seed = 7 /\ size ACTIONS_seed <> 6.
Proof. split; vm_compute; [reflexivity|discriminate]. Defined.

(** C7 at work: a built-in action of risk [MEDIUM] exists. *)
Lemma ACTIONS_seed_contents_witness :
  exists key action, ACTIONS_seed !! key = Some action /\ risk_level action = MEDIUM.
Proof.
  apply (proj1 (proj2 (proj2 (proj2 ACTIONS_seed_contents))) MEDIUM).
  discriminate.
Defined.

(** C8 refuted as stated: two consecutive requests for an action nobody
    registered, with a callback that always answers [false], both return
    [true]. *)
Lemma request_consent_twice_unregistered :
  always_yields (UI := unit) false deny_all /\
  result (request_consent (UI := unit) (ConsentManager_init (Some deny_all))
            "unregistered_action" "ar" (startup tt)) = true /\
  result (request_consent (UI := unit) (ConsentManager_init (Some deny_all))
            "unregistered_action" "ar"
            (final (request_consent (ConsentManager_init (Some deny_all))
                      "unregistered_action" "ar" (startup tt)))) = true.
Proof.
  split; [intros warning language p; reflexivity|].
  split; vm_compute; reflexivity.
Defined.

(** C8 at work: "github_delete_repo" twice with [approve_all], and twice
    with [deny_all]; after an approval the second request asks again. *)
Lemma request_consent_twice_witness :
  (result (request_consent (UI := unit) (ConsentManager_init (Some approve_all))
             "github_delete_repo" "ar" (startup tt)) = true /\
   result (request_consent (UI := unit) (ConsentManager_init (Some approve_all))
             "github_delete_repo" "ar"
             (final (request_consent (ConsentManager_init (Some approve_all))
                       "github_delete_repo" "ar" (startup tt)))) = true) /\
  (result (request_consent (UI := unit) (ConsentManager_init (Some deny_all))
             "github_delete_repo" "ar" (startup tt)) = false /\
   result (request_consent (UI := unit) (ConsentManager_init (Some deny_all))
             "github_delete_repo" "ar"
             (final (request_consent (ConsentManager_init (Some deny_all))
                       "github_delete_repo" "ar" (startup tt)))) = false) /\
  prompts (request_consent (UI := unit) (ConsentManager_init (Some approve_all))
             "github_delete_repo" "ar"
             (final (request_consent (ConsentManager_init (Some approve_all))
                       "github_delete_repo" "ar" (startup tt)))) =
    [("⚠️ تحذير: هذا الإجراء سيحذف المستودع بشكل دائم. لا يمكن التراجع عن هذا الإجراء.",
      "ar")].
Proof.
  split; [|split].
  - apply (proj1 (request_consent_twice (UI := unit)
                    (ConsentManager_init (Some approve_all)) approve_all
                    "github_delete_repo" "ar" (startup tt) eq_refl)).
    intros warning language p; reflexivity.
  - apply (proj1 (proj2 (proj2 (request_consent_twice (UI := unit)
                    (ConsentManager_init (Some deny_all)) deny_all
                    "github_delete_repo" "ar" (startup tt) eq_refl)))).
    + intros warning language p; reflexivity.
    + intros warning lang q; reflexivity.
    + vm_compute; reflexivity.
  - destruct (proj2 (proj2 (proj2 (proj2 (proj2 (proj2
                (request_consent_twice (UI := unit)
                   (ConsentManager_init (Some approve_all)) approve_all
                   "github_delete_repo" "ar" (startup tt) eq_refl))))))
                (fun warning lang q => eq_refl) ltac:(vm_compute; reflexivity))
      as (_ & _ & Hagain & _).
    exact Hagain.
Defined.

(** C9 at work: two managers with different callbacks, two processes with
    different presentation layers and the same registry. *)
Lemma decision_logic_pure_witness :
  result (requires_consent (UI := bool) (ConsentManager_init None)
            "delete_file" (startup false)) =
  result (requires_consent (UI := bool) (ConsentManager_init (Some approve_all))
            "delete_file" (startup true)) /\
  final (get_warning (UI := bool) (ConsentManager_init None)
           "delete_file" "en" (startup false)) = startup false.
Proof.
  pose proof (decision_logic_pure (UI := bool) (ConsentManager_init None)
                (ConsentManager_init (Some approve_all)) "delete_file" "en"
                (startup false) (startup true) eq_refl eq_refl)
    as ((_ & _ & Hfinal & _) & Hsame & _).
  split; [exact Hsame|exact Hfinal].
Defined.

(** ** More on the gateway *)

Section GatewayMore.

Context {UI : Type}.
Implicit Types (self registrar : ConsentManager UI) (p : Process UI) (cb : Callback UI).
Implicit Types (action_name language : string) (action : Action).

Lemma register_action_run registrar action p :
  register_action registrar action p =
  mkOutcome tt (mkProcess (<[name action := action]> (ACTIONS p)) (ui p)) [].
Proof. reflexivity. Qed.

(** X1. A request asks the callback at most once, and changes nothing by
    itself: if the callback was not asked, the process is as it was.
    Without a callback nobody is asked, so a refusal leaves no trace
    either. *)
Theorem request_consent_footprint self action_name language p :
  length (prompts (request_consent self action_name language p)) <= 1 /\
  (prompts (request_consent self action_name language p) = [] ->
   final (request_consent self action_name language p) = p) /\
  (callback self = None ->
   prompts (request_consent self action_name language p) = [] /\
   final (request_consent self action_name language p) = p).
Proof.
  destruct (result (requires_consent self action_name p)) eqn:Hreq.
  - destruct (callback self) as [cb|] eqn:Hcb.
    + rewrite (request_consent_callback _ _ _ _ _ Hreq Hcb).
      unfold call; cbn [prompts final length].
      split; [lia|]. split; [discriminate|discriminate].
    + rewrite (request_consent_no_callback _ _ _ _ Hreq Hcb).
      cbn [prompts final length]. split; [lia|]. split; [reflexivity|]. split; reflexivity.
  - rewrite (request_consent_not_required _ _ _ _ Hreq).
    cbn [prompts final length]. split; [lia|]. split; [reflexivity|]. split; reflexivity.
Qed.

(** X2. Under the setting [__init__] gives ([auto_approve_safe] on), an
    action requires consent exactly when its risk, as [get_action_risk]
    reports it, is not [SAFE]; with the setting off, exactly when it is
    registered. *)
Theorem requires_consent_iff_risk (callback : option (Callback UI)) action_name p :
  (result (requires_consent (ConsentManager_init callback) action_name p) = true <->
   result (get_action_risk (ConsentManager_init callback) action_name p) <> SAFE) /\
  (result (requires_consent (mkConsentManager callback false) action_name p) = true <->
   is_Some (ACTIONS p !! action_name)).
Proof.
  rewrite !requires_consent_run, get_action_risk_run; cbn [result auto_approve_safe ConsentManager_init].
  destruct (ACTIONS p !! action_name) as [action|]; cbn [from_option].
  - split.
    + destruct (decide (risk_level action = SAFE)) as [Hs|Hs].
      * rewrite bool_decide_true by exact Hs. cbn. split; [discriminate|congruence].
      * rewrite bool_decide_false by exact Hs. cbn. split; [intros _; exact Hs|reflexivity].
    + cbn. split; [eauto|reflexivity].
  - split; (split; [discriminate|]).
    + congruence.
    + intros [? ?]; discriminate.
Qed.

(** X3. Registration arms the gate.  Once a definition whose risk is not
    [SAFE] is registered, every manager requires consent for its name;
    a request for it is refused when the manager has no callback, and
    otherwise the callback is asked with the warning of that very
    definition, in Arabic for "ar" and in English for any other tag. *)
Theorem register_then_request registrar self action language p :
  risk_level action <> SAFE ->
  result (requires_consent self (name action)
            (final (register_action registrar action p))) = true /\
  (callback self = None ->
   result (request_consent self (name action) language
             (final (register_action registrar action p))) = false) /\
  (forall cb,
     callback self = Some cb ->
     request_consent self (name action) language
       (final (register_action registrar action p)) =
     call cb (Action_get_warning action language) language
       (final (register_action registrar action p))).
Proof.
  intros Hrisk.
  assert (Hreq : result (requires_consent self (name action)
                           (final (register_action registrar action p))) = true).
  { rewrite requires_consent_run, register_action_run; cbn [result final ACTIONS].
    rewrite lookup_insert_eq, bool_decide_false by exact Hrisk.
    rewrite andb_false_r. reflexivity. }
  split; [exact Hreq|]. split.
  - intros Hcb. rewrite (request_consent_no_callback _ _ _ _ Hreq Hcb). reflexivity.
  - intros cb Hcb. rewrite (request_consent_callback _ _ _ _ _ Hreq Hcb).
    rewrite get_warning_run, register_action_run; cbn [result final ACTIONS].
    rewrite lookup_insert_eq. reflexivity.
Qed.

(** X4. Registration can also disarm it.  Once a definition of risk
    [SAFE] is registered, a manager with the setting of [__init__]
    approves every request for its name without asking anybody, whatever
    the registry held under that name before. *)
Theorem register_safe_disarms registrar (callback : option (Callback UI))
    action language p :
  risk_level action = SAFE ->
  request_consent (ConsentManager_init callback) (name action) language
    (final (register_action registrar action p)) =
  mkOutcome true (final (register_action registrar action p)) [].
Proof.
  intros Hsafe. apply request_consent_not_required.
  rewrite requires_consent_run, register_action_run;
    cbn [result final ACTIONS auto_approve_safe ConsentManager_init].
  rewrite lookup_insert_eq, bool_decide_true by exact Hsafe. reflexivity.
Qed.

(** X5. Registering the same definition twice is registering it once;
    registrations under different names can be swapped; of two
    registrations under one name the later stands alone; and a
    registration changes the decision, the risk and the warning of no
    other name. *)
Theorem register_action_algebra registrar self (a b : Action) language p :
  final (register_action registrar a (final (register_action registrar a p))) =
    final (register_action registrar a p) /\
  (name a <> name b ->
   final (register_action registrar b (final (register_action registrar a p))) =
   final (register_action registrar a (final (register_action registrar b p)))) /\
  (name a = name b ->
   final (register_action registrar b (final (register_action registrar a p))) =
   final (register_action registrar b p)) /\
  (forall other : string,
     other <> name a ->
     requires_consent self other (final (register_action registrar a p)) =
       mkOutcome (result (requires_consent self other p))
         (final (register_action registrar a p)) [] /\
     result (get_action_risk self other (final (register_action registrar a p))) =
       result (get_action_risk self other p) /\
     result (get_warning self other language (final (register_action registrar a p))) =
       result (get_warning self other language p)).
Proof.
  rewrite !register_action_run; cbn [final ACTIONS ui].
  split; [rewrite insert_insert_eq; reflexivity|].
  split; [intros Hne; f_equal; apply insert_insert_ne; congruence|].
  split; [intros ->; rewrite insert_insert_eq; reflexivity|].
  intros other Hne.
  rewrite !requires_consent_run, !get_action_risk_run, !get_warning_run;
    cbn [result final ACTIONS].
  rewrite lookup_insert_ne by congruence. repeat split.
Qed.

End GatewayMore.

(** X6. Every built-in action is gated from the start: under either value
    of [auto_approve_safe] it requires consent, its warning is not empty
    in any language, and a manager without a callback refuses it. *)
Theorem seed_actions_gated {UI : Type} (self : ConsentManager UI)
    (key language : string) (u : UI) :
  is_Some (ACTIONS_seed !! key) ->
  result (requires_consent self key (startup u)) = true /\
  result (get_warning self key language (startup u)) <> "" /\
  (callback self = None ->
   request_consent self key language (startup u) = mkOutcome false (startup u) []).
Proof.
  intros [action Hget].
  destruct (ACTIONS_seed_entries key action Hget) as (_ & Hrisk & Har & Hen).
  assert (Hreq : result (requires_consent self key (startup u)) = true).
  { rewrite requires_consent_run; cbn [result startup ACTIONS].
    rewrite Hget, bool_decide_false by exact Hrisk.
    rewrite andb_false_r. reflexivity. }
  split; [exact Hreq|]. split.
  - rewrite get_warning_run; cbn [result startup ACTIONS].
    rewrite Hget; cbn [from_option]. unfold Action_get_warning.
    destruct (String.eqb language "ar"); assumption.
  - intros Hcb. apply request_consent_no_callback; assumption.
Qed.

(** ** More on calm warnings *)

(** X7. The [action] argument of [create_calm_warning] plays no part, and
    the pair it returns tells everything else apart except [MEDIUM] from
    [HIGH]: two calls return the same pair exactly when the details are
    the same and the risk levels are equal or are [MEDIUM] and [HIGH]. *)
Theorem create_calm_warning_inj (action1 action2 : string) (r1 r2 : ActionRisk)
    (ar1 ar2 en1 en2 : string) :
  create_calm_warning action1 r1 ar1 en1 = create_calm_warning action2 r2 ar2 en2 <->
  (r1 = r2 \/ (r1 = MEDIUM /\ r2 = HIGH) \/ (r1 = HIGH /\ r2 = MEDIUM)) /\
  ar1 = ar2 /\ en1 = en2.
Proof.
  unfold create_calm_warning. split.
  - intros Hsame.
    destruct r1, r2; cbv [icons String.append] in Hsame; simplify_eq; tauto.
  - intros (Hrisk & -> & ->).
    destruct Hrisk as [-> | [[-> ->] | [-> ->]]]; reflexivity.
Qed.

(** X8. A definition whose two warnings come from [create_calm_warning]
    never yields an empty prompt: once it is registered, [get_warning]
    for its name is non-empty in every language, empty details
    included. *)
Theorem calm_warning_registered_nonempty {UI : Type}
    (registrar self : ConsentManager UI) (p : Process UI)
    (action_name descr details_ar details_en language : string) (risk : ActionRisk) :
  result (get_warning self action_name language
            (final (register_action registrar
                      (mkAction action_name descr risk
                         (create_calm_warning action_name risk details_ar details_en).1
                         (create_calm_warning action_name risk details_ar details_en).2)
                      p))) <> "".
Proof.
  rewrite get_warning_run, register_action_run; cbn [result final ACTIONS name].
  rewrite lookup_insert_eq; cbn [from_option].
  unfold Action_get_warning; cbn [warning_ar warning_en].
  destruct (String.eqb language "ar"); destruct risk;
    cbv [create_calm_warning icons String.append fst snd]; discriminate.
Qed.

(** ** The integrations *)

Section ServiceRuns.

Context {UI : Type}.

Lemma consent_refused_run (consent : option (ConsentManager UI))
    (action_name language : string) (p : Process UI) :
  consent_refused consent action_name language p =
  match consent with
  | None => mkOutcome false p []
  | Some manager =>
      mkOutcome (negb (result (request_consent manager action_name language p)))
        (final (request_consent manager action_name language p))
        (prompts (request_consent manager action_name language p))
  end.
Proof.
  destruct consent as [manager|]; [|reflexivity].
  unfold consent_refused, mbind, M_bind, bind, ret; cbn [result final prompts].
  rewrite app_nil_r. reflexivity.
Qed.

(** The dictionaries the integrations return, read by key. *)
Lemma failure_reply (e : string) (key : string) :
  dict_display [("success", PyBool false); ("error", PyStr e)] !! key =
  if String.eqb key "error" then Some (PyStr e)
  else if String.eqb key "success" then Some (PyBool false)
  else None.
Proof.
  unfold dict_display; cbn [foldl fst snd].
  destruct (String.eqb key "error") eqn:He.
  - apply String.eqb_eq in He as ->. apply lookup_insert_eq.
  - apply String.eqb_neq in He. rewrite lookup_insert_ne by congruence.
    destruct (String.eqb key "success") eqn:Hs.
    + apply String.eqb_eq in Hs as ->. apply lookup_insert_eq.
    + apply String.eqb_neq in Hs. rewrite lookup_insert_ne by congruence.
      apply lookup_empty.
Qed.

Lemma success_reply (key : string) :
  dict_display [("success", PyBool true)] !! key =
  if String.eqb key "success" then Some (PyBool true) else None.
Proof.
  unfold dict_display; cbn [foldl fst snd].
  destruct (String.eqb key "success") eqn:Hs.
  - apply String.eqb_eq in Hs as ->. apply lookup_insert_eq.
  - apply String.eqb_neq in Hs. rewrite lookup_insert_ne by congruence.
    apply lookup_empty.
Qed.

Lemma started_reply (m : string) (key : string) :
  dict_display [("success", PyBool true); ("message", PyStr m)] !! key =
  if String.eqb key "message" then Some (PyStr m)
  else if String.eqb key "success" then Some (PyBool true)
  else None.
Proof.
  unfold dict_display; cbn [foldl fst snd].
  destruct (String.eqb key "message") eqn:He.
  - apply String.eqb_eq in He as ->. apply lookup_insert_eq.
  - apply String.eqb_neq in He. rewrite lookup_insert_ne by congruence.
    destruct (String.eqb key "success") eqn:Hs.
    + apply String.eqb_eq in Hs as ->. apply lookup_insert_eq.
    + apply String.eqb_neq in Hs. rewrite lookup_insert_ne by congruence.
      apply lookup_empty.
Qed.

End ServiceRuns.

Section GitHubServiceFacts.

Context {UI Repository : Type}.
Variable Github_get_repo : string -> Process UI -> (string + Repository) * Process UI.
Variable Repository_delete : Repository -> Process UI -> (string + unit) * Process UI.

#[local] Abbreviation delete_repository :=
  (GitHubService.delete_repository Github_get_repo Repository_delete).

Implicit Types (self : GitHubService.t UI) (p : Process UI).
Implicit Types (repo_name language : string).

(** [delete_repository] by cases: on the test of consent, on what
    [get_repo] gives and on what [delete] gives. *)
Lemma delete_repository_run self repo_name language p :
  delete_repository self repo_name language p =
  let gate :=
    consent_refused (GitHubService.consent self) "github_delete_repo" language p in
  if result gate then
    mkServed
      (dict_display [
         ("success", PyBool false);
         ("error", PyStr (if String.eqb language "en"
                          then "User denied consent" else "رفض المستخدم الموافقة"))])
      (final gate) (prompts gate) []
  else
    let found := Github_get_repo repo_name (final gate) in
    match found.1 with
    | inl e =>
        mkServed (dict_display [("success", PyBool false); ("error", PyStr e)])
          found.2 (prompts gate) [GitHubService.get_repo repo_name]
    | inr repo =>
        let deleted := Repository_delete repo found.2 in
        mkServed
          (match deleted.1 with
           | inl e => dict_display [("success", PyBool false); ("error", PyStr e)]
           | inr _ => dict_display [("success", PyBool true)]
           end)
          deleted.2 (prompts gate)
          [GitHubService.get_repo repo_name; GitHubService.delete repo]
    end.
Proof.
  unfold GitHubService.delete_repository, mbind, Svc_mbind, Svc_bind, consult, remote.
  cbn zeta.
  destruct (consent_refused (GitHubService.consent self) "github_delete_repo" language p)
    as [refused q t]; cbn [result final prompts reply after asked called].
  destruct refused; cbn [reply after asked called mret Svc_mret Svc_ret].
  - rewrite app_nil_r. reflexivity.
  - destruct (Github_get_repo repo_name q) as [[e|repo] q1];
      cbn [fst snd reply after asked called mret Svc_mret Svc_ret].
    + rewrite !app_nil_r. reflexivity.
    + destruct (Repository_delete repo q1) as [[e|[]] q2];
        cbn [fst snd reply after asked called mret Svc_mret Svc_ret];
        rewrite !app_nil_r; reflexivity.
Qed.

Lemma delete_repository_halts self manager repo_name language p :
  GitHubService.consent self = Some manager ->
  result (request_consent manager "github_delete_repo" language p) = false ->
  delete_repository self repo_name language p =
  mkServed
    (dict_display [
       ("success", PyBool false);
       ("error", PyStr (if String.eqb language "en"
                        then "User denied consent" else "رفض المستخدم الموافقة"))])
    (final (request_consent manager "github_delete_repo" language p))
    (prompts (request_consent manager "github_delete_repo" language p)) [].
Proof.
  intros Hconsent Hdenied.
  rewrite delete_repository_run, consent_refused_run, Hconsent; cbn zeta.
  cbn [result final prompts]. rewrite Hdenied. reflexivity.
Qed.

(** X9. When the service has a consent manager and the request for
    "github_delete_repo" is refused, [delete_repository] calls nothing of
    the GitHub API: the process is left as the consent dialogue left it,
    and the reply is a failure whose message is English for the language
    "en" and Arabic for every other tag. *)
Theorem delete_repository_refused self manager repo_name language p :
  GitHubService.consent self = Some manager ->
  result (request_consent manager "github_delete_repo" language p) = false ->
  called (delete_repository self repo_name language p) = [] /\
  after (delete_repository self repo_name language p) =
    final (request_consent manager "github_delete_repo" language p) /\
  asked (delete_repository self repo_name language p) =
    prompts (request_consent manager "github_delete_repo" language p) /\
  reply (delete_repository self repo_name language p) !! "success" =
    Some (PyBool false) /\
  reply (delete_repository self repo_name language p) !! "error" =
    Some (PyStr (if String.eqb language "en"
                 then "User denied consent" else "رفض المستخدم الموافقة")).
Proof.
  intros Hconsent Hdenied.
  rewrite (delete_repository_halts _ _ _ _ _ Hconsent Hdenied).
  cbn [reply after asked called]. rewrite !failure_reply.
  repeat split.
Qed.

(** X10. What [delete_repository] reports is what happened.  It replies
    success exactly when consent was not refused, [get_repo] returned a
    repository for the requested name and [delete] on that repository
    raised nothing; a success reply has no "error", a failure reply
    always has one.  The calls it makes are none, or [get_repo] alone, or
    [get_repo] followed by one [delete], on the repository [get_repo]
    returned; and none exactly when consent was refused. *)
Theorem delete_repository_truthful self repo_name language p :
  let gate :=
    consent_refused (GitHubService.consent self) "github_delete_repo" language p in
  let found := Github_get_repo repo_name (final gate) in
  let served := delete_repository self repo_name language p in
  (reply served !! "success" = Some (PyBool true) <->
   result gate = false /\
   exists repo, found.1 = inr repo /\ (Repository_delete repo found.2).1 = inr tt) /\
  ((reply served !! "success" = Some (PyBool true) /\ reply served !! "error" = None) \/
   (reply served !! "success" = Some (PyBool false) /\ is_Some (reply served !! "error"))) /\
  (called served = [] \/
   called served = [GitHubService.get_repo repo_name] \/
   exists repo, found.1 = inr repo /\
     called served = [GitHubService.get_repo repo_name; GitHubService.delete repo]) /\
  (called served = [] <-> result gate = true).
Proof.
  intros gate found served. subst served. rewrite delete_repository_run; cbn zeta.
  fold gate. destruct (result gate) eqn:Hgate; cbn [reply called].
  { rewrite !failure_reply; cbn.
    split; [split; [discriminate|intros [? _]; discriminate]|].
    split; [right; eauto|]. split; [left; reflexivity|]. split; reflexivity. }
  fold found. destruct found as [[e|repo] q1]; cbn [fst snd reply called].
  { rewrite !failure_reply; cbn.
    split; [split; [discriminate|intros (_ & ? & ? & _); discriminate]|].
    split; [right; eauto|]. split; [right; left; reflexivity|].
    split; discriminate. }
  destruct (Repository_delete repo q1) as [[e|[]] q2] eqn:Hdel; cbn [fst snd].
  - rewrite !failure_reply; cbn.
    split.
    { split; [discriminate|].
      intros (_ & repo' & [= <-] & Hok). rewrite Hdel in Hok. discriminate. }
    split; [right; eauto|]. split; [right; right; eauto|]. split; discriminate.
  - rewrite !success_reply; cbn.
    split.
    { split; [|reflexivity]. intros _. split; [reflexivity|].
      exists repo. rewrite Hdel. split; reflexivity. }
    split; [left; split; reflexivity|]. split; [right; right; eauto|].
    split; discriminate.
Qed.

(** X11. A service built without a consent manager asks nobody: it goes
    straight to the GitHub API, whatever the registry says about
    "github_delete_repo". *)
Theorem delete_repository_without_manager self repo_name language p :
  GitHubService.consent self = None ->
  asked (delete_repository self repo_name language p) = [] /\
  exists rest,
    called (delete_repository self repo_name language p) =
    GitHubService.get_repo repo_name :: rest.
Proof.
  intros Hnone. rewrite delete_repository_run, consent_refused_run, Hnone; cbn zeta.
  cbn [result final prompts].
  destruct (Github_get_repo repo_name p) as [[e|repo] q1]; cbn [fst snd asked called];
    eauto.
Qed.

(** X12. The warning and the refusal do not follow the same rule of
    language.  For a tag that is neither "ar" nor "en", when the callback
    is asked about "github_delete_repo" and declines, it was shown the
    English warning (only "ar" selects Arabic there) and the reply
    carries the Arabic message (only "en" selects English there). *)
Theorem delete_repository_mixed_languages self manager cb action
    repo_name language p :
  GitHubService.consent self = Some manager ->
  callback manager = Some cb ->
  ACTIONS p !! "github_delete_repo" = Some action ->
  risk_level action <> SAFE ->
  (cb (warning_en action) language p).1 = false ->
  language <> "ar" ->
  language <> "en" ->
  asked (delete_repository self repo_name language p) =
    [(warning_en action, language)] /\
  reply (delete_repository self repo_name language p) !! "error" =
    Some (PyStr "رفض المستخدم الموافقة").
Proof.
  intros Hconsent Hcb Hget Hrisk Hno Har Hen.
  assert (Hreq : result (requires_consent manager "github_delete_repo" p) = true).
  { rewrite requires_consent_run; cbn [result]. rewrite Hget.
    rewrite bool_decide_false by exact Hrisk. rewrite andb_false_r. reflexivity. }
  assert (Hwarn : result (get_warning manager "github_delete_repo" language p) =
                  warning_en action).
  { rewrite get_warning_run; cbn [result]. rewrite Hget; cbn [from_option].
    unfold Action_get_warning. apply String.eqb_neq in Har. rewrite Har. reflexivity. }
  assert (Hrun : request_consent manager "github_delete_repo" language p =
                 call cb (warning_en action) language p).
  { rewrite (request_consent_callback _ _ _ _ _ Hreq Hcb), Hwarn. reflexivity. }
  assert (Hdenied : result (request_consent manager "github_delete_repo" language p) = false).
  { rewrite Hrun. exact Hno. }
  rewrite (delete_repository_halts _ _ _ _ _ Hconsent Hdenied).
  cbn [reply asked]. rewrite failure_reply, Hrun.
  apply String.eqb_neq in Hen. rewrite Hen. split; reflexivity.
Qed.

End GitHubServiceFacts.

Section AzureServiceFacts.

Context {UI Poller : Type}.
Variable resource_groups_begin_delete :
  string -> Process UI -> (string + Poller) * Process UI.

#[local] Abbreviation delete_resource_group :=
  (AzureService.delete_resource_group resource_groups_begin_delete).

Implicit Types (self : AzureService.t UI) (p : Process UI).
Implicit Types (name language : string).

Lemma delete_resource_group_run self name language p :
  delete_resource_group self name language p =
  let gate :=
    consent_refused (AzureService.consent self) "azure_delete_resource" language p in
  if result gate then
    mkServed
      (dict_display [
         ("success", PyBool false);
         ("error", PyStr (if String.eqb language "en"
                          then "User denied consent" else "رفض المستخدم الموافقة"))])
      (final gate) (prompts gate) []
  else
    let begun := resource_groups_begin_delete name (final gate) in
    mkServed
      (match begun.1 with
       | inr _ =>
           dict_display [
             ("success", PyBool true);
             ("message", PyStr (if String.eqb language "en"
                                then "Deletion started" else "بدأ الحذف"))]
       | inl e => dict_display [("success", PyBool false); ("error", PyStr e)]
       end)
      begun.2 (prompts gate) [AzureService.begin_delete name].
Proof.
  unfold AzureService.delete_resource_group, mbind, Svc_mbind, Svc_bind, consult, remote.
  cbn zeta.
  destruct (consent_refused (AzureService.consent self) "azure_delete_resource" language p)
    as [refused q t]; cbn [result final prompts reply after asked called].
  destruct refused; cbn [reply after asked called mret Svc_mret Svc_ret].
  - rewrite app_nil_r. reflexivity.
  - destruct (resource_groups_begin_delete name q) as [[e|poller] q1];
      cbn [fst snd reply after asked called mret Svc_mret Svc_ret];
      rewrite !app_nil_r; reflexivity.
Qed.

(** X13. [delete_resource_group] calls [begin_delete] not at all when
    consent is refused and exactly once, for the requested group,
    otherwise.  It replies success exactly when consent was not refused
    and [begin_delete] raised nothing; a success reply carries a message
    ("Deletion started" for the language "en", Arabic for any other tag)
    and no "error", a failure reply an "error" and no message. *)
Theorem delete_resource_group_gated self name language p :
  let gate :=
    consent_refused (AzureService.consent self) "azure_delete_resource" language p in
  let begun := resource_groups_begin_delete name (final gate) in
  let served := delete_resource_group self name language p in
  (called served = [] <-> result gate = true) /\
  (result gate = false -> called served = [AzureService.begin_delete name]) /\
  (reply served !! "success" = Some (PyBool true) <->
   result gate = false /\ exists poller, begun.1 = inr poller) /\
  ((reply served !! "success" = Some (PyBool true) /\
    reply served !! "message" =
      Some (PyStr (if String.eqb language "en" then "Deletion started" else "بدأ الحذف")) /\
    reply served !! "error" = None) \/
   (reply served !! "success" = Some (PyBool false) /\
    is_Some (reply served !! "error") /\
    reply served !! "message" = None)).
Proof.
  intros gate begun served. subst served.
  rewrite delete_resource_group_run; cbn zeta. fold gate.
  destruct (result gate) eqn:Hgate; cbn [reply called].
  { rewrite !failure_reply; cbn.
    split; [split; reflexivity|]. split; [discriminate|].
    split; [split; [discriminate|intros [? _]; discriminate]|].
    right; eauto. }
  fold begun. destruct begun as [[e|poller] q1]; cbn [fst snd].
  - rewrite !failure_reply; cbn.
    split; [split; discriminate|]. split; [reflexivity|].
    split; [split; [discriminate|intros (_ & ? & ?); discriminate]|].
    right; eauto.
  - rewrite !started_reply; cbn.
    split; [split; discriminate|]. split; [reflexivity|].
    split; [split; [eauto|reflexivity]|].
    left; repeat split.
Qed.

End AzureServiceFacts.

(** ** The application *)

Section HavenAppFacts.

Context {Terminal : Type}.
Variable Console_print : HavenApp.Panel -> Terminal -> Terminal.
Variable Confirm_ask : string -> bool -> Terminal -> bool * Terminal.

#[local] Abbreviation app_consent := (HavenApp.consent Console_print Confirm_ask).
#[local] Abbreviation app_github := (HavenApp.github Console_print Confirm_ask).

Implicit Types (p : Process (HavenApp.TerminalUI Terminal)).
Implicit Types (action_name language : string) (action : Action).

Lemma app_request_consent_run action_name action language p :
  ACTIONS p !! action_name = Some action ->
  risk_level action <> SAFE ->
  request_consent app_consent action_name language p =
  call (HavenApp._consent_callback Console_print Confirm_ask)
    (Action_get_warning action language) language p.
Proof.
  intros Hget Hrisk.
  assert (Hreq : result (requires_consent app_consent action_name p) = true).
  { rewrite requires_consent_run; cbn [result]. rewrite Hget.
    rewrite bool_decide_false by exact Hrisk. rewrite andb_false_r. reflexivity. }
  rewrite (request_consent_callback _ _ _ _ _ Hreq eq_refl).
  rewrite get_warning_run; cbn [result]. rewrite Hget. reflexivity.
Qed.

(** X14. The dialogue of the application.  For a registered action whose
    risk is not [SAFE], a request prints the warning of the action in a
    yellow panel, then asks to continue with "no" as the default answer,
    in Arabic when the language is "ar" and in English otherwise (the
    same rule as for the warning), and returns what the user answers; the
    registry and the language of the interface are left as they were.
    For an action that is not registered the terminal is not touched and
    the request is approved. *)
Theorem app_consent_dialogue action_name language p :
  (forall action,
     ACTIONS p !! action_name = Some action ->
     risk_level action <> SAFE ->
     let shown :=
       Console_print
         (HavenApp.mkPanel (Action_get_warning action language) "yellow" "⚠️")
         (HavenApp.console (ui p)) in
     let answer :=
       Confirm_ask
         (if String.eqb language "ar"
          then "هل تريد المتابعة؟" else "Do you want to continue?")
         false shown in
     result (request_consent app_consent action_name language p) = answer.1 /\
     HavenApp.console (ui (final (request_consent app_consent action_name language p)))
       = answer.2 /\
     HavenApp.current_language
       (ui (final (request_consent app_consent action_name language p)))
       = HavenApp.current_language (ui p) /\
     ACTIONS (final (request_consent app_consent action_name language p)) = ACTIONS p) /\
  (ACTIONS p !! action_name = None ->
   request_consent app_consent action_name language p = mkOutcome true p []).
Proof.
  split.
  - intros action Hget Hrisk shown answer.
    rewrite (app_request_consent_run _ _ _ _ Hget Hrisk).
    repeat split.
  - intros Hget. apply request_consent_not_required.
    rewrite requires_consent_run; cbn [result]. rewrite Hget. reflexivity.
Qed.

Section Wired.

Context {Repository : Type}.
Variable Github_get_repo :
  string -> Process (HavenApp.TerminalUI Terminal) ->
  (string + Repository) * Process (HavenApp.TerminalUI Terminal).
Variable Repository_delete :
  Repository -> Process (HavenApp.TerminalUI Terminal) ->
  (string + unit) * Process (HavenApp.TerminalUI Terminal).

(** X15. In the application as [__init__] wires it, while
    "github_delete_repo" is registered with a risk other than [SAFE] (as
    it is from the start), [delete_repository] reaches the GitHub API
    only through a "yes" of the user: if the user answers "no" nothing is
    called and the reply is a failure; if the user answers "yes"
    [get_repo] is called for the requested name; so a call made means the
    user said "yes". *)
Theorem app_delete_repository_needs_yes action repo_name language p :
  ACTIONS p !! "github_delete_repo" = Some action ->
  risk_level action <> SAFE ->
  let answer :=
    Confirm_ask
      (if String.eqb language "ar"
       then "هل تريد المتابعة؟" else "Do you want to continue?")
      false
      (Console_print
         (HavenApp.mkPanel (Action_get_warning action language) "yellow" "⚠️")
         (HavenApp.console (ui p))) in
  let served :=
    GitHubService.delete_repository Github_get_repo Repository_delete
      app_github repo_name language p in
  (answer.1 = false ->
   called served = [] /\ reply served !! "success" = Some (PyBool false)) /\
  (answer.1 = true ->
   exists rest, called served = GitHubService.get_repo repo_name :: rest) /\
  (called served <> [] -> answer.1 = true).
Proof.
  intros Hget Hrisk answer served.
  assert (Hres : result (request_consent app_consent "github_delete_repo" language p)
                 = answer.1).
  { rewrite (app_request_consent_run _ _ _ _ Hget Hrisk). reflexivity. }
  assert (Hno : answer.1 = false ->
                called served = [] /\ reply served !! "success" = Some (PyBool false)).
  { intros Hanswer. subst served.
    rewrite (delete_repository_halts _ _ app_github app_consent repo_name language p
               eq_refl (eq_trans Hres Hanswer)).
    cbn [called reply]. rewrite failure_reply. split; reflexivity. }
  split; [exact Hno|]. split.
  - intros Hanswer. subst served.
    rewrite delete_repository_run, consent_refused_run; cbn zeta.
    cbn [GitHubService.consent HavenApp.github result final prompts].
    rewrite Hres, Hanswer; cbn [negb].
    destruct (Github_get_repo repo_name _) as [[e|repo] q1]; cbn [fst snd called]; eauto.
  - intros Hcalled. destruct (answer.1) eqn:Hanswer; [reflexivity|].
    destruct (Hno eq_refl) as [Hnil _]. contradiction.
Qed.

End Wired.

End HavenAppFacts.

(** ** The further statements at work on concrete processes *)

(** X1 at work: a refusal for want of a callback leaves the process as it
    was. *)
Lemma request_consent_footprint_witness :
  prompts (request_consent (UI := unit) (ConsentManager_init None)
             "github_delete_repo" "ar" (startup tt)) = [] /\
  final (request_consent (UI := unit) (ConsentManager_init None)
           "github_delete_repo" "ar" (startup tt)) = startup tt.
Proof.
  apply (proj2 (proj2 (request_consent_footprint (UI := unit) (ConsentManager_init None)
                         "github_delete_repo" "ar" (startup tt)))).
  reflexivity.
Defined.

(** X2 at work: "delete_file" is [LOW], so it requires consent. *)
Lemma requires_consent_iff_risk_witness :
  result (requires_consent (UI := unit) (ConsentManager_init None)
            "delete_file" (startup tt)) = true.
Proof.
  apply (proj1 (requires_consent_iff_risk (UI := unit) None "delete_file" (startup tt))).
  vm_compute. discriminate.
Defined.

(** X3 at work on [wipe_db]. *)
Lemma register_then_request_witness :
  result (requires_consent (UI := unit) (ConsentManager_init None) "wipe_db"
            (final (register_action (ConsentManager_init None) wipe_db (startup tt))))
    = true.
Proof.
  apply (register_then_request (UI := unit) (ConsentManager_init None)
           (ConsentManager_init None) wipe_db "en" (startup tt)).
  discriminate.
Defined.

(** X4 at work: a [SAFE] definition registered under the name
    "github_delete_repo" opens the gate of the built-in action. *)
Lemma register_safe_disarms_witness :
  request_consent (UI := unit) (ConsentManager_init None) "github_delete_repo" "ar"
    (final (register_action (ConsentManager_init None)
              (mkAction "github_delete_repo" "" SAFE "" "") (startup tt))) =
  mkOutcome true
    (final (register_action (ConsentManager_init None)
              (mkAction "github_delete_repo" "" SAFE "" "") (startup tt))) [].
Proof.
  apply (register_safe_disarms (UI := unit) (ConsentManager_init None) None
           (mkAction "github_delete_repo" "" SAFE "" "") "ar" (startup tt)).
  reflexivity.
Defined.

(** X5 at work: [wipe_db] and [show_status] in either order. *)
Lemma register_action_algebra_witness :
  final (register_action (UI := unit) (ConsentManager_init None) show_status
           (final (register_action (ConsentManager_init None) wipe_db (startup tt)))) =
  final (register_action (UI := unit) (ConsentManager_init None) wipe_db
           (final (register_action (ConsentManager_init None) show_status (startup tt)))).
Proof.
  apply (proj1 (proj2 (register_action_algebra (UI := unit) (ConsentManager_init None)
                         (ConsentManager_init None) wipe_db show_status "ar"
                         (startup tt)))).
  discriminate.
Defined.

(** X6 at work on "clear_history". *)
Lemma seed_actions_gated_witness :
  result (requires_consent (UI := unit) (mkConsentManager None false)
            "clear_history" (startup tt)) = true.
Proof.
  apply (seed_actions_gated (UI := unit) (mkConsentManager None false)
           "clear_history" "en" tt).
  eexists. vm_compute. reflexivity.
Defined.

(** X7 at work: [MEDIUM] and [HIGH] give the same pair. *)
Lemma create_calm_warning_inj_witness :
  create_calm_warning "a" MEDIUM "x" "y" = create_calm_warning "b" HIGH "x" "y".
Proof.
  apply (proj2 (create_calm_warning_inj "a" "b" MEDIUM HIGH "x" "x" "y" "y")).
  split; [right; left; split; reflexivity|split; reflexivity].
Defined.

(** X9 at work: a manager whose callback declines. *)
Lemma delete_repository_refused_witness :
  called (GitHubService.delete_repository (UI := unit) stub_get_repo stub_delete
            (GitHubService.mk (Some (ConsentManager_init (Some deny_all))))
            "owner/repo" "en" (startup tt)) = [] /\
  reply (GitHubService.delete_repository (UI := unit) stub_get_repo stub_delete
           (GitHubService.mk (Some (ConsentManager_init (Some deny_all))))
           "owner/repo" "en" (startup tt)) !! "error" =
    Some (PyStr "User denied consent").
Proof.
  destruct (delete_repository_refused (UI := unit) stub_get_repo stub_delete
              (GitHubService.mk (Some (ConsentManager_init (Some deny_all))))
              (ConsentManager_init (Some deny_all)) "owner/repo" "en" (startup tt)
              eq_refl ltac:(vm_compute; reflexivity))
    as (Hcalled & _ & _ & _ & Herror).
  split; [exact Hcalled|exact Herror].
Defined.

(** X10 at work: the callback approves and GitHub deletes; the reply is a
    success. *)
Lemma delete_repository_truthful_witness :
  reply (GitHubService.delete_repository (UI := unit) stub_get_repo stub_delete
           (GitHubService.mk (Some (ConsentManager_init (Some approve_all))))
           "owner/repo" "en" (startup tt)) !! "success" = Some (PyBool true).
Proof.
  apply (proj1 (delete_repository_truthful (UI := unit) stub_get_repo stub_delete
                  (GitHubService.mk (Some (ConsentManager_init (Some approve_all))))
                  "owner/repo" "en" (startup tt))).
  split; [vm_compute; reflexivity|].
  exists "owner/repo". split; vm_compute; reflexivity.
Defined.

(** X11 at work: no manager, no question, and the repository is gone. *)
Lemma delete_repository_without_manager_witness :
  asked (GitHubService.delete_repository (UI := unit) stub_get_repo stub_delete
           (GitHubService.mk None) "owner/repo" "ar" (startup tt)) = [] /\
  exists rest,
    called (GitHubService.delete_repository (UI := unit) stub_get_repo stub_delete
              (GitHubService.mk None) "owner/repo" "ar" (startup tt)) =
    GitHubService.get_repo "owner/repo" :: rest.
Proof.
  apply (delete_repository_without_manager (UI := unit) stub_get_repo stub_delete
           (GitHubService.mk None) "owner/repo" "ar" (startup tt)).
  reflexivity.
Defined.

(** X12 at work for the tag "fr". *)
Lemma delete_repository_mixed_languages_witness :
  asked (GitHubService.delete_repository (UI := unit) stub_get_repo stub_delete
           (GitHubService.mk (Some (ConsentManager_init (Some deny_all))))
           "owner/repo" "fr" (startup tt)) =
    [("⚠️ Warning: This will permanently delete the repository. This action cannot be undone.",
      "fr")] /\
  reply (GitHubService.delete_repository (UI := unit) stub_get_repo stub_delete
           (GitHubService.mk (Some (ConsentManager_init (Some deny_all))))
           "owner/repo" "fr" (startup tt)) !! "error" =
    Some (PyStr "رفض المستخدم الموافقة").
Proof.
  epose proof (delete_repository_mixed_languages (UI := unit) stub_get_repo stub_delete
                 (GitHubService.mk (Some (ConsentManager_init (Some deny_all))))
                 (ConsentManager_init (Some deny_all)) deny_all _
                 "owner/repo" "fr" (startup tt) eq_refl eq_refl
                 ltac:(vm_compute; reflexivity)) as Hmixed.
  apply Hmixed.
  - cbn. discriminate.
  - reflexivity.
  - discriminate.
  - discriminate.
Defined.

(** X13 at work: approved, and Azure accepts. *)
Lemma delete_resource_group_gated_witness :
  called (AzureService.delete_resource_group (UI := unit) stub_begin_delete
            (AzureService.mk (Some (ConsentManager_init (Some approve_all))))
            "group" "en" (startup tt)) = [AzureService.begin_delete "group"].
Proof.
  apply (proj1 (proj2 (delete_resource_group_gated (UI := unit) stub_begin_delete
                         (AzureService.mk (Some (ConsentManager_init (Some approve_all))))
                         "group" "en" (startup tt)))).
  vm_compute. reflexivity.
Defined.

(** X14 at work: asked about "github_delete_repo" in "fr", a user who
    says yes has seen the English warning, then the English question; an
    action nobody registered leaves the terminal alone. *)
Lemma app_consent_dialogue_witness :
  (result (request_consent (HavenApp.consent stub_print (stub_confirm true))
             "github_delete_repo" "fr" (startup (HavenApp.mkTerminalUI [] "ar"))) = true /\
   HavenApp.console
     (ui (final (request_consent (HavenApp.consent stub_print (stub_confirm true))
                   "github_delete_repo" "fr"
                   (startup (HavenApp.mkTerminalUI [] "ar"))))) =
     ["⚠️ Warning: This will permanently delete the repository. This action cannot be undone.";
      "Do you want to continue?"]%list) /\
  request_consent (HavenApp.consent stub_print (stub_confirm false))
    "unregistered_action" "ar" (startup (HavenApp.mkTerminalUI [] "ar")) =
  mkOutcome true (startup (HavenApp.mkTerminalUI [] "ar")) [].
Proof.
  split.
  - epose proof (proj1 (app_consent_dialogue stub_print (stub_confirm true)
                          "github_delete_repo" "fr"
                          (startup (HavenApp.mkTerminalUI [] "ar")))
                   _ ltac:(vm_compute; reflexivity)) as Hdialogue.
    destruct Hdialogue as (Hanswer & Hconsole & _ & _); [cbn; discriminate|].
    split; [exact Hanswer|exact Hconsole].
  - apply (proj2 (app_consent_dialogue stub_print (stub_confirm false)
                    "unregistered_action" "ar" (startup (HavenApp.mkTerminalUI [] "ar")))).
    vm_compute. reflexivity.
Defined.

(** X15 at work: the user answers "no" at the start of the process. *)
Lemma app_delete_repository_needs_yes_witness :
  called (GitHubService.delete_repository stub_get_repo stub_delete
            (HavenApp.github stub_print (stub_confirm false))
            "owner/repo" "ar" (startup (HavenApp.mkTerminalUI [] "ar"))) = [] /\
  reply (GitHubService.delete_repository stub_get_repo stub_delete
           (HavenApp.github stub_print (stub_confirm false))
           "owner/repo" "ar" (startup (HavenApp.mkTerminalUI [] "ar"))) !! "success" =
    Some (PyBool false).
Proof.
  epose proof (app_delete_repository_needs_yes stub_print (stub_confirm false)
                 stub_get_repo stub_delete _
                 "owner/repo" "ar" (startup (HavenApp.mkTerminalUI [] "ar"))
                 ltac:(vm_compute; reflexivity)) as Hyes.
  apply Hyes.
  - cbn. discriminate.
  - reflexivity.
Defined.
